(** * Response-envelope decoding of [src/data/Api.ts]

    A shallow embedding of the runtime part of [Api.ts]: the two
    status-dispatching factories [responseDecoder] and [authResponseDecoder],
    the five envelope decoders and the two no-op decoders.  The endpoint
    descriptor types ([GetApi], [AuthPostApi], ...) are TypeScript types and
    leave no trace at run time, so they are not part of the embedding.

    The file has three layers:
    - [JS]  : the JavaScript values the decoders inspect, and exceptions;
    - [JD]  : the combinators [Api.ts] imports from the [decoders] package;
    - [Api] : the functions of [Api.ts] themselves, one definition each. *)

From Stdlib Require Import QArith.
From stdpp Require Import gmap strings list fin_maps.

#[local] Set Warnings "-register-all,-clear-no-such-hyp".
#[local] Open Scope string_scope.

(* ===================================================================== *)
(** ** JavaScript values and exceptions *)
(* ===================================================================== *)

Module JS.

(** A JavaScript [number].  Every finite double is a rational, so the finite
    numbers are carried as [Q]; the three remaining doubles are separate
    constructors.  No arithmetic is done on numbers in [Api.ts], only [===]
    against the literals of the [switch]. *)
Inductive number : Type :=
| Finite (q : Q)
| NaN
| Infinity (negative : bool).

(** [a === b] on numbers: [NaN] differs from everything, itself included. *)
Definition number_equal (a b : number) : bool :=
  match a, b with
  | Finite p, Finite q => Qeq_bool p q
  | Infinity s, Infinity t => Bool.eqb s t
  | _, _ => false
  end.

(** The integer literal [n] of the source text. *)
Definition lit (n : Z) : number := Finite (inject_Z n).

(** An untrusted value as the transport layer hands it over: parsed JSON,
    extended with [undefined] (what reading an absent property gives) and
    with [VOther] for the values that are neither a scalar, an array nor an
    object that the decoders treat as a plain one (functions, symbols,
    dates, maps, ...).  [VObj] stands for every object that passes the
    package's plain-object test: an object literal, an object of parsed
    JSON, and also an instance of a class, which the decoders read through
    its properties like any other object.  Such an object is a finite map
    from property names to values. *)
Inductive Value : Type :=
| VUndefined
| VNull
| VBool (b : bool)
| VNum (n : number)
| VStr (s : string)
| VArr (items : list Value)
| VObj (fields : gmap string Value)
| VOther (label : string).

Definition is_undefined (v : Value) : bool :=
  match v with VUndefined => true | _ => false end.

(** [a === b].  Scalars compare by value.  Arrays and objects compare by
    identity; a value that has just been received is never identical to a
    literal of the program, which is the only comparison [Api.ts] makes. *)
Definition strict_equal (a b : Value) : bool :=
  match a, b with
  | VUndefined, VUndefined => true
  | VNull, VNull => true
  | VBool x, VBool y => Bool.eqb x y
  | VNum x, VNum y => number_equal x y
  | VStr x, VStr y => String.eqb x y
  | _, _ => false
  end.

(** [obj[key]] on a plain object: an absent property reads as [undefined]. *)
Definition get (obj : gmap string Value) (key : string) : Value :=
  default VUndefined (obj !! key).

(** A thrown [Error] object. *)
Record Error : Type := mkError { name : string; message : string }.

(** [new Error(message)] *)
Definition new_Error (msg : string) : Error :=
  {| name := "Error"; message := msg |}.

Definition TypeError (msg : string) : Error :=
  {| name := "TypeError"; message := msg |}.

(** The outcome of evaluating an expression: it returns a value or it
    throws. *)
Inductive Outcome (A : Type) : Type :=
| Return (a : A)
| Throw (e : Error).
Arguments Return {A} a.
Arguments Throw {A} e.

#[export] Instance Outcome_ret : MRet Outcome := @Return.
#[export] Instance Outcome_bind : MBind Outcome :=
  fun A B k m => match m with Return a => k a | Throw e => Throw e end.

(** Reading the property [key] of [v] as the destructuring pattern
    [({ key }) => ...] does: it throws on [undefined] and [null] and reads
    the own property of a plain object.  The property names read in
    [Api.ts] ([_t], [data], [code]) are own properties of nothing else. *)
Definition member (v : Value) (key : string) : Outcome Value :=
  match v with
  | VObj obj => Return (get obj key)
  | VUndefined | VNull =>
      Throw (TypeError ("Cannot destructure property '" ++ key ++ "'"))
  | _ => Return VUndefined
  end.

End JS.

Export JS.

(* ===================================================================== *)
(** ** The decoder combinators consumed by [Api.ts] *)
(* ===================================================================== *)

(** [Api.ts] begins with [import * as JD from "decoders"]: the combinators
    are a dependency, none of them is defined under [src/].  The spec lists
    them as a consumed capability (section 6); each one used by [Api.ts] is
    given here, following the package's documented behaviour where the spec
    leaves a point open.  A decoder is run with [decode], which never throws
    and reports acceptance or rejection as a [DecodeResult]. *)
Module JD.

(** Modelled from the spec: the description a decode failure carries
    (section 7: "a description of the violated expectation"); the package's
    annotation type is not under [src/].  Only the text is kept; the
    annotated echo of the offending input is left out, and no property
    below depends on the wording of a text. *)
Record Annotation : Type := mkAnnotation { text : string }.

(** Modelled from the spec: the result of running a decoder, "a tagged
    variant ... or a decode failure" (section 2); the package's
    [DecodeResult] is not under [src/]. *)
Inductive DecodeResult : Type :=
| Ok (value : Value)
| Err (error : Annotation).

(** Modelled from the spec: a decoder of the consumed combinator capability
    (section 6); the package's [Decoder] is not under [src/].  TypeScript's
    type parameter is erased at run time: a decoder maps an untrusted value
    to a result. *)
Record Decoder : Type := define { decode : Value → DecodeResult }.

(** Modelled from the spec: a decode failure with the given text, the
    package's [err(msg)]; not under [src/]. *)
Definition err (msg : string) : DecodeResult := Err {| text := msg |}.

(** "Decoding fails": the decoder rejects the blob, with some description. *)
Definition rejects (d : Decoder) (blob : Value) : Prop :=
  ∃ error, decode d blob = Err error.

(** A key between double quotes, for the texts of [object]. *)
Definition dquote : string := String (Ascii.ascii_of_nat 34) EmptyString.
Definition quote (s : string) : string := dquote ++ s ++ dquote.

(** Modelled from the spec: the "verify operation that runs a decoder and
    raises on failure" (section 6), [decoder.verify(blob)]; not under
    [src/]. *)
Definition verify (d : Decoder) (blob : Value) : Outcome Value :=
  match decode d blob with
  | Ok value => Return value
  | Err ann => Throw {| name := "Decoding error"; message := text ann |}
  end.

(** Modelled from the spec: chaining on a successful decode,
    [decoder.then(next)]; not under [src/].  It underlies [transform] and
    [object]. *)
Definition then_ (d : Decoder) (next : Value → DecodeResult) : Decoder :=
  define (fun blob =>
    match decode d blob with
    | Ok value => next value
    | Err ann => Err ann
    end).

(** Modelled from the spec: the "transform/map operation on a successful
    decode" (section 6), [decoder.transform(fn)]; not under [src/].  An
    exception thrown by [fn] is caught and becomes a decode failure that
    carries the exception's message. *)
Definition transform (d : Decoder) (fn : Value → Outcome Value) : Decoder :=
  then_ d (fun value =>
    match fn value with
    | Return v => Ok v
    | Throw e => err (message e)
    end).

(** Modelled from the spec: the "literal/constant matcher" (section 6),
    [JD.constant(value)]; not under [src/].  It accepts exactly the blobs
    that are [===] to the literal and yields the literal. *)
Definition constant (value : Value) : Decoder :=
  define (fun blob =>
    if strict_equal blob value then Ok value
    else err "Must be the given constant").

(** Modelled from the spec: the "accept any unvalidated value matcher"
    (section 6), [JD.unknown]; not under [src/].  It accepts every blob,
    [undefined] included, and passes it through. *)
Definition unknown : Decoder := define (fun blob => Ok blob).

(** Modelled from the spec: the decoder behind the no-op decoders, which
    "always fail/reject any input" (section 4.3), [JD.never(msg)]; not
    under [src/]. *)
Definition never (msg : string) : Decoder :=
  define (fun _ => err msg).

(** Modelled from the spec: the "either of two decoders combinator"
    (section 6) with "first alternative tried first; if neither matches,
    decoding fails" (section 4.1), [JD.either(first, second)]; not under
    [src/]. *)
Definition either (first second : Decoder) : Decoder :=
  define (fun blob =>
    match decode first blob with
    | Ok value => Ok value
    | Err e1 =>
        match decode second blob with
        | Ok value => Ok value
        | Err e2 => err ("Either: " ++ text e1 ++ " / " ++ text e2)
        end
    end).

(** Modelled from the spec: the plain-object test in front of the
    "object-shape matcher" (section 6), [JD.pojo]; not under [src/].
    It accepts the objects that [VObj] stands for, instances of classes
    among them; arrays, [null], [undefined], scalars and the values under
    [VOther] are not plain objects. *)
Definition pojo : Decoder :=
  define (fun blob =>
    match blob with
    | VObj _ => Ok blob
    | _ => err "Must be an object"
    end).

(** Modelled from the spec: the state of the loop that the "object-shape
    matcher" (section 6) runs over its field decoders; not under [src/].
    It holds the record built so far, the fields that were rejected and
    the keys found missing. *)
Record Scan : Type := mkScan {
  record : gmap string Value;
  errors : list (string * Annotation);
  missingKeys : gset string
}.

(** Modelled from the spec: one turn of the loop of the "object-shape
    matcher" (section 6); not under [src/].  It decodes [plainObj[key]]
    with the field's decoder.  An accepted value is stored unless it is
    [undefined]; a rejected [undefined] counts as a missing key, any other
    rejected value as a field error. *)
Definition scan_key (plainObj : gmap string Value) (acc : Scan)
    (field : string * Decoder) : Scan :=
  let rawValue := get plainObj field.1 in
  match decode field.2 rawValue with
  | Ok value =>
      {| record := if is_undefined value then record acc
                   else <[field.1 := value]> (record acc);
         errors := errors acc;
         missingKeys := missingKeys acc ∖ {[field.1]} |}
  | Err ann =>
      if is_undefined rawValue
      then {| record := record acc;
              errors := errors acc;
              missingKeys := {[field.1]} ∪ missingKeys acc |}
      else {| record := record acc;
              errors := errors acc ++ [(field.1, ann)];
              missingKeys := missingKeys acc |}
  end.

(** Modelled from the spec: the text of a rejection by the "object-shape
    matcher" (section 6); not under [src/].  It names the rejected fields
    and the missing keys. *)
Definition describe (scan : Scan) : string :=
  foldr (fun e acc => quote e.1 ++ ": " ++ text e.2 ++ "; " ++ acc)
        EmptyString (errors scan)
  ++ foldr (fun key acc => "Missing key: " ++ quote key ++ "; " ++ acc)
           EmptyString (elements (missingKeys scan)).

(** Modelled from the spec: the "object-shape matcher (named-field mapping
    to decoders)" (section 6), [JD.object({ key: decoder, ... })]; not
    under [src/].  The blob must be a plain object.  Each declared key is
    read from it, an absent key reading as [undefined], and handed to its
    decoder, so that the field decoder decides whether the key may be
    absent.  The result holds the declared keys only: properties of the
    blob that no decoder is declared for are neither checked nor copied.
    The fields are an association list because the loop runs in the order
    in which the keys are written. *)
Definition object (decoders : list (string * Decoder)) : Decoder :=
  let knownKeys : gset string := list_to_set decoders.*1 in
  then_ pojo (fun blob =>
    match blob with
    | VObj plainObj =>
        let scan :=
          foldl (scan_key plainObj)
                {| record := ∅; errors := [];
                   missingKeys := knownKeys ∖ dom plainObj |}
                decoders in
        match errors scan with
        | [] =>
            if decide (missingKeys scan = ∅) then Ok (VObj (record scan))
            else err (describe scan)
        | _ :: _ => err (describe scan)
        end
    | _ => err "Must be an object"
    end).

(** Modelled from the spec: the "string matcher" (section 6), [JD.string];
    not under [src/]. *)
Definition string : Decoder :=
  define (fun blob =>
    match blob with
    | VStr _ => Ok blob
    | _ => err "Must be string"
    end).

End JD.

(* ===================================================================== *)
(** ** [src/data/Api.ts] *)
(* ===================================================================== *)

Module Api.

(** [ok200Decoder(dataDecoder)], lines 187-194. *)
Definition ok200Decoder (dataDecoder : JD.Decoder) : JD.Decoder :=
  JD.transform
    (JD.object [("_t", JD.constant (VStr "Ok")); ("data", JD.unknown)])
    (fun r =>
       _t ← member r "_t";
       data ← member r "data";
       checked ← JD.verify dataDecoder data;
       mret (VObj {["_t" := _t; "data" := checked]})).

(** [err400Decoder(errorDecoder)], lines 196-203. *)
Definition err400Decoder (errorDecoder : JD.Decoder) : JD.Decoder :=
  JD.transform
    (JD.object [("_t", JD.constant (VStr "Err")); ("code", JD.unknown)])
    (fun r =>
       _t ← member r "_t";
       code ← member r "code";
       checked ← JD.verify errorDecoder code;
       mret (VObj {["_t" := _t; "code" := checked]})).

(** [authErr400Decoder(errorDecoder)], lines 205-215. *)
Definition authErr400Decoder (errorDecoder : JD.Decoder) : JD.Decoder :=
  JD.transform
    (JD.object [("_t", JD.constant (VStr "Err")); ("code", JD.unknown)])
    (fun r =>
       _t ← member r "_t";
       code ← member r "code";
       checked ←
         JD.verify
           (JD.either (JD.constant (VStr "UNAUTHORISED")) errorDecoder) code;
       mret (VObj {["_t" := _t; "code" := checked]})).

(** [adminErr400Decoder(errorDecoder)], lines 217-227. *)
Definition adminErr400Decoder (errorDecoder : JD.Decoder) : JD.Decoder :=
  JD.transform
    (JD.object [("_t", JD.constant (VStr "Err")); ("code", JD.unknown)])
    (fun r =>
       _t ← member r "_t";
       code ← member r "code";
       checked ←
         JD.verify
           (JD.either (JD.constant (VStr "UNAUTHORISED")) errorDecoder) code;
       mret (VObj {["_t" := _t; "code" := checked]})).

(** [internalErr500Decoder()], lines 229-234. *)
Definition internalErr500Decoder (_ : unit) : JD.Decoder :=
  JD.object
    [("_t", JD.constant (VStr "ServerError")); ("errorID", JD.string)].

(** The message of the error both factories throw.  The source writes it
    between double quotes, not backquotes. *)
Definition invalid_status_message : string :=
  "Invalid status number: `${status}`".

(** [responseDecoder(errorDecoder, dataDecoder)], lines 151-167: the
    function it returns, applied to [status]. *)
Definition responseDecoder (errorDecoder dataDecoder : JD.Decoder)
    (status : number) : Outcome JD.Decoder :=
  if number_equal status (lit 200) then Return (ok200Decoder dataDecoder)
  else if number_equal status (lit 400) then
    Return (err400Decoder errorDecoder)
  else if number_equal status (lit 500) then
    Return (internalErr500Decoder ())
  else Throw (new_Error invalid_status_message).

(** [authResponseDecoder(errorDecoder, dataDecoder)], lines 169-185. *)
Definition authResponseDecoder (errorDecoder dataDecoder : JD.Decoder)
    (status : number) : Outcome JD.Decoder :=
  if number_equal status (lit 200) then Return (ok200Decoder dataDecoder)
  else if number_equal status (lit 400) then
    Return (authErr400Decoder errorDecoder)
  else if number_equal status (lit 500) then
    Return (internalErr500Decoder ())
  else Throw (new_Error invalid_status_message).

(** [noUrlParamsDecoder] and [noBodyParamsDecoder], lines 241-242. *)
Definition noUrlParamsDecoder : JD.Decoder := JD.never "_".
Definition noBodyParamsDecoder : JD.Decoder := JD.never "_".

(** The statuses for which the envelope protocol is defined. *)
Definition known_status (status : number) : bool :=
  number_equal status (lit 200) || number_equal status (lit 400)
  || number_equal status (lit 500).

End Api.

Export Api.

(* ===================================================================== *)
(** ** Auxiliary definitions for the proofs *)
(* ===================================================================== *)

(** The Ok decoder and the three Err decoders of [Api.ts] are one pattern
    written out four times: a tagged object whose second field is taken
    unvalidated and then verified by an inner decoder.  [envelope] is that
    pattern; the decoders of [Api.ts] are instances of it
    ([ok200Decoder_envelope] and the lemmas after it), which lets one set of
    lemmas serve all of them. *)
Definition envelope (tag key : string) (inner : JD.Decoder) : JD.Decoder :=
  JD.transform
    (JD.object [("_t", JD.constant (VStr tag)); (key, JD.unknown)])
    (fun r =>
       _t ← member r "_t";
       x ← member r key;
       checked ← JD.verify inner x;
       mret (VObj {["_t" := _t; key := checked]})).

(** The decoder [authErr400Decoder] and [adminErr400Decoder] verify [code]
    with. *)
Definition authCodeDecoder (errorDecoder : JD.Decoder) : JD.Decoder :=
  JD.either (JD.constant (VStr "UNAUTHORISED")) errorDecoder.

(** The payload [{ _t: tag, [key]: v, ...extras }]: the two envelope fields
    written over whatever else the object carries. *)
Definition payload (tag key : string) (v : Value)
    (extras : gmap string Value) : Value :=
  VObj ({["_t" := VStr tag; key := v]} ∪ extras).

(** The decoded envelope [{ _t: tag, [key]: v }]. *)
Definition envelope_value (tag key : string) (v : Value) : Value :=
  VObj {["_t" := VStr tag; key := v]}.

(** The property names of a decoded object. *)
Definition keys (r : JD.DecodeResult) : option (gset string) :=
  match r with
  | JD.Ok (VObj fields) => Some (dom fields)
  | _ => None
  end.

(** The value a decode yields, if it yields one.  Two outcomes with the same
    [accepted] are both rejections or are the same success; the descriptions
    of two rejections are not compared. *)
Definition accepted (r : JD.DecodeResult) : option Value :=
  match r with
  | JD.Ok value => Some value
  | JD.Err _ => None
  end.

(** A decoder that accepts its own outputs unchanged, as a decoder of an
    enumeration of codes or of strings does. *)
Definition stable (d : JD.Decoder) : Prop :=
  ∀ v v', JD.decode d v = JD.Ok v' → JD.decode d v' = JD.Ok v'.

(* ===================================================================== *)
(** ** The decoders at work *)
(* ===================================================================== *)

Example ok200_keeps_valid_data :
  JD.decode (ok200Decoder JD.string)
            (VObj {["_t" := VStr "Ok"; "data" := VStr "x"]})
  = JD.Ok (VObj {["_t" := VStr "Ok"; "data" := VStr "x"]}).
Proof. reflexivity. Qed.

Example ok200_refuses_invalid_data :
  JD.decode (ok200Decoder JD.string)
            (VObj {["_t" := VStr "Ok"; "data" := VNum (lit 3)]})
  = JD.err "Must be string".
Proof. reflexivity. Qed.

Example ok200_refuses_array :
  JD.decode (ok200Decoder JD.string) (VArr [VStr "Ok"; VStr "x"])
  = JD.err "Must be an object".
Proof. reflexivity. Qed.

Example authErr400_takes_error_code :
  JD.decode (authErr400Decoder (JD.constant (VStr "NOT_FOUND")))
            (VObj {["_t" := VStr "Err"; "code" := VStr "NOT_FOUND"]})
  = JD.Ok (VObj {["_t" := VStr "Err"; "code" := VStr "NOT_FOUND"]}).
Proof. reflexivity. Qed.

Example authErr400_refuses_other_code :
  JD.rejects (authErr400Decoder (JD.constant (VStr "NOT_FOUND")))
             (VObj {["_t" := VStr "Err"; "code" := VStr "GONE"]}).
Proof. eexists. reflexivity. Qed.

Example internalErr500_refuses_missing_errorID :
  JD.rejects (internalErr500Decoder ()) (VObj {["_t" := VStr "ServerError"]}).
Proof. eexists. reflexivity. Qed.

Example status_204_throws :
  responseDecoder JD.string JD.unknown (lit 204)
  = Throw (new_Error "Invalid status number: `${status}`").
Proof. reflexivity. Qed.

Example status_NaN_throws :
  authResponseDecoder JD.string JD.unknown NaN
  = Throw (new_Error "Invalid status number: `${status}`").
Proof. reflexivity. Qed.

(* ===================================================================== *)
(** ** Lemmas on values and on the combinators *)
(* ===================================================================== *)

Lemma strict_equal_VStr (v : Value) (s : string) :
  strict_equal v (VStr s) = true ↔ v = VStr s.
Proof.
  destruct v; simpl; try (split; [discriminate | congruence]).
  rewrite String.eqb_eq. split; congruence.
Qed.

Lemma is_undefined_true (v : Value) : is_undefined v = true → v = VUndefined.
Proof. by destruct v. Qed.

Lemma get_Some (o : gmap string Value) (k : string) (v : Value) :
  o !! k = Some v → get o k = v.
Proof. unfold get. by intros ->. Qed.

Lemma get_None (o : gmap string Value) (k : string) :
  o !! k = None → get o k = VUndefined.
Proof. unfold get. by intros ->. Qed.

(** A tag that is absent or different is not [===] to the expected one. *)
Lemma tag_mismatch (o : gmap string Value) (tag : string) :
  o !! "_t" ≠ Some (VStr tag) →
  strict_equal (get o "_t") (VStr tag) = false.
Proof.
  intros Ht. apply not_true_is_false. rewrite strict_equal_VStr. unfold get.
  destruct (o !! "_t") as [v|]; simpl; [congruence | discriminate].
Qed.

Lemma number_equal_lit (z1 z2 : Z) :
  number_equal (lit z1) (lit z2) = bool_decide (z1 = z2).
Proof.
  unfold number_equal, lit. case_bool_decide as Hz.
  - subst. apply Qeq_bool_iff. reflexivity.
  - apply not_true_is_false. intros Heq. apply Qeq_bool_iff in Heq.
    apply Hz. by apply inject_Z_injective.
Qed.

(** A status that is [===] to one integer literal is not [===] to another. *)
Lemma number_equal_lit_other (status : number) (z1 z2 : Z) :
  z1 ≠ z2 →
  number_equal status (lit z1) = true → number_equal status (lit z2) = false.
Proof.
  intros Hz H1. apply not_true_is_false. intros H2.
  destruct status as [q| |b]; simpl in *; try discriminate.
  apply Qeq_bool_iff in H1. apply Qeq_bool_iff in H2.
  apply Hz, inject_Z_injective. by rewrite <- H1, <- H2.
Qed.

Lemma rejects_not_pojo (ds : list (string * JD.Decoder)) (v : Value) :
  (∀ o, v ≠ VObj o) → JD.rejects (JD.object ds) v.
Proof.
  intros Hv. unfold JD.rejects. destruct v; simpl; eauto.
  by destruct (Hv fields).
Qed.

Lemma authCodeDecoder_literal (errorDecoder : JD.Decoder) :
  JD.decode (authCodeDecoder errorDecoder) (VStr "UNAUTHORISED")
  = JD.Ok (VStr "UNAUTHORISED").
Proof. reflexivity. Qed.

Lemma authCodeDecoder_other (errorDecoder : JD.Decoder) (c c' : Value) :
  c ≠ VStr "UNAUTHORISED" → JD.decode errorDecoder c = JD.Ok c' →
  JD.decode (authCodeDecoder errorDecoder) c = JD.Ok c'.
Proof.
  intros Hc Hd. unfold authCodeDecoder. simpl.
  destruct (strict_equal c (VStr "UNAUTHORISED")) eqn:E.
  - by apply strict_equal_VStr in E.
  - by rewrite Hd.
Qed.

(** *** The tagged two-field object matcher

    [JD.object({ _t: JD.constant(tag), [key]: second })], the shape of every
    object matcher in [Api.ts]. *)
Section TaggedObject.
Variables (tag key : string) (second : JD.Decoder).
Hypothesis key_not_tag : key ≠ "_t".

Let matcher : JD.Decoder :=
  JD.object [("_t", JD.constant (VStr tag)); (key, second)].

(** Accepted: the tag is right and [second] accepts what is read under
    [key].  The record holds the tag, and the field unless its decoded
    value is [undefined]. *)
Lemma tagged_object_accepts (o : gmap string Value) (v : Value) :
  o !! "_t" = Some (VStr tag) →
  JD.decode second (get o key) = JD.Ok v →
  JD.decode matcher (VObj o)
  = JD.Ok (VObj (if is_undefined v then {["_t" := VStr tag]}
                 else <[key := v]> {["_t" := VStr tag]})).
Proof.
  intros Ht Hv. subst matcher.
  unfold JD.object, JD.then_. simpl. unfold JD.scan_key. simpl.
  rewrite (get_Some _ _ _ Ht). simpl. rewrite String.eqb_refl. simpl.
  rewrite Hv. simpl.
  destruct (decide _) as [_|Hne]; [done|]. exfalso. apply Hne. set_solver.
Qed.

(** Rejected: the tag is absent or is not [tag]. *)
Lemma tagged_object_wrong_tag (o : gmap string Value) :
  o !! "_t" ≠ Some (VStr tag) → JD.rejects matcher (VObj o).
Proof.
  intros Ht. apply tag_mismatch in Ht. subst matcher.
  unfold JD.rejects, JD.object, JD.then_. simpl. unfold JD.scan_key. simpl.
  rewrite Ht.
  destruct (is_undefined (get o "_t")); simpl;
    destruct (JD.decode second (get o key)); simpl;
    try destruct (is_undefined (get o key)); simpl;
    try (destruct (decide _) as [He|_]); eauto;
    exfalso; assert ("_t" ∈ (∅ : gset string)) by (rewrite <- He; set_solver);
    set_solver.
Qed.

(** Rejected: [second] rejects what is read under [key]. *)
Lemma tagged_object_wrong_field (o : gmap string Value) :
  JD.rejects second (get o key) → JD.rejects matcher (VObj o).
Proof.
  intros [a Ha]. subst matcher.
  unfold JD.rejects, JD.object, JD.then_. simpl. unfold JD.scan_key. simpl.
  rewrite Ha.
  destruct (strict_equal (get o "_t") (VStr tag)); simpl;
    try destruct (is_undefined (get o "_t")); simpl;
    destruct (is_undefined (get o key)); simpl;
    try (destruct (decide _) as [He|_]); eauto;
    exfalso; assert (key ∈ (∅ : gset string)) by (rewrite <- He; set_solver);
    set_solver.
Qed.

End TaggedObject.

(** *** The envelope pattern *)
Section Envelope.
Variables (tag key : string) (inner : JD.Decoder).
Hypothesis key_not_tag : key ≠ "_t".

(** On an object with the right tag the outcome is that of [inner] on what
    is read under [key], an absent [key] reading as [undefined]. *)
Lemma envelope_tagged (o : gmap string Value) :
  o !! "_t" = Some (VStr tag) →
  JD.decode (envelope tag key inner) (VObj o)
  = match JD.decode inner (get o key) with
    | JD.Ok v => JD.Ok (envelope_value tag key v)
    | JD.Err a => JD.err (JD.text a)
    end.
Proof.
  intros Ht. unfold envelope, JD.transform, JD.then_.
  cbn [JD.decode].
  rewrite (tagged_object_accepts tag key JD.unknown key_not_tag o (get o key)
             Ht eq_refl).
  set (r := if is_undefined (get o key) then _ else _).
  assert (Hr1 : get r "_t" = VStr tag).
  { subst r. unfold get. destruct (is_undefined _); by simplify_map_eq. }
  assert (Hr2 : get r key = get o key).
  { subst r. unfold get. destruct (is_undefined _) eqn:U.
    - apply is_undefined_true in U. unfold get in U. rewrite U.
      by simplify_map_eq.
    - by simplify_map_eq. }
  cbn. rewrite Hr1, Hr2. unfold JD.verify.
  destruct (JD.decode inner (get o key)); reflexivity.
Qed.

Lemma envelope_accepts (o : gmap string Value) (v v' : Value) :
  o !! "_t" = Some (VStr tag) → o !! key = Some v →
  JD.decode inner v = JD.Ok v' →
  JD.decode (envelope tag key inner) (VObj o)
  = JD.Ok (envelope_value tag key v').
Proof.
  intros Ht Hk Hv. rewrite (envelope_tagged o Ht).
  by rewrite (get_Some _ _ _ Hk), Hv.
Qed.

Lemma envelope_rejects_field (o : gmap string Value) :
  o !! "_t" = Some (VStr tag) → JD.rejects inner (get o key) →
  JD.rejects (envelope tag key inner) (VObj o).
Proof.
  intros Ht [a Ha]. unfold JD.rejects. rewrite (envelope_tagged o Ht), Ha.
  eauto.
Qed.

Lemma envelope_rejects_tag (o : gmap string Value) :
  o !! "_t" ≠ Some (VStr tag) →
  JD.rejects (envelope tag key inner) (VObj o).
Proof.
  intros Ht.
  destruct (tagged_object_wrong_tag tag key JD.unknown key_not_tag o Ht)
    as [a Ha].
  exists a. unfold envelope, JD.transform, JD.then_. cbn [JD.decode].
  by rewrite Ha.
Qed.

Lemma envelope_rejects_not_object (v : Value) :
  (∀ o, v ≠ VObj o) → JD.rejects (envelope tag key inner) v.
Proof.
  intros Hv. unfold JD.rejects. destruct v; simpl; eauto.
  by destruct (Hv fields).
Qed.

(** Whatever else the object carries does not reach the result. *)
Lemma envelope_payload (extras : gmap string Value) (v v' : Value) :
  JD.decode inner v = JD.Ok v' →
  JD.decode (envelope tag key inner) (payload tag key v extras)
  = JD.Ok (envelope_value tag key v').
Proof.
  intros Hv. unfold payload. apply (envelope_accepts _ v); [| |done].
  - apply lookup_union_Some_l. by simplify_map_eq.
  - apply lookup_union_Some_l. by simplify_map_eq.
Qed.

Lemma envelope_value_keys (v : Value) :
  keys (JD.Ok (envelope_value tag key v)) = Some {["_t"; key]}.
Proof.
  unfold keys, envelope_value. f_equal.
  rewrite dom_insert_L, dom_singleton_L. set_solver.
Qed.

End Envelope.

(** The envelope decoders of [Api.ts] are instances of the pattern. *)
Lemma ok200Decoder_envelope (dataDecoder : JD.Decoder) :
  ok200Decoder dataDecoder = envelope "Ok" "data" dataDecoder.
Proof. reflexivity. Qed.

Lemma err400Decoder_envelope (errorDecoder : JD.Decoder) :
  err400Decoder errorDecoder = envelope "Err" "code" errorDecoder.
Proof. reflexivity. Qed.

Lemma authErr400Decoder_envelope (errorDecoder : JD.Decoder) :
  authErr400Decoder errorDecoder
  = envelope "Err" "code" (authCodeDecoder errorDecoder).
Proof. reflexivity. Qed.

Lemma adminErr400Decoder_envelope (errorDecoder : JD.Decoder) :
  adminErr400Decoder errorDecoder
  = envelope "Err" "code" (authCodeDecoder errorDecoder).
Proof. reflexivity. Qed.

Lemma data_not_tag : "data" ≠ "_t".
Proof. discriminate. Qed.

Lemma code_not_tag : "code" ≠ "_t".
Proof. discriminate. Qed.

Lemma errorID_not_tag : "errorID" ≠ "_t".
Proof. discriminate. Qed.

(** *** The factories *)

Lemma responseDecoder_unknown_status
    (eD dD : JD.Decoder) (status : number) :
  known_status status = false →
  responseDecoder eD dD status = Throw (new_Error invalid_status_message).
Proof.
  unfold known_status, responseDecoder. intros H.
  apply orb_false_elim in H as [H H500].
  apply orb_false_elim in H as [H200 H400].
  by rewrite H200, H400, H500.
Qed.

Lemma authResponseDecoder_unknown_status
    (eD dD : JD.Decoder) (status : number) :
  known_status status = false →
  authResponseDecoder eD dD status = Throw (new_Error invalid_status_message).
Proof.
  unfold known_status, authResponseDecoder. intros H.
  apply orb_false_elim in H as [H H500].
  apply orb_false_elim in H as [H200 H400].
  by rewrite H200, H400, H500.
Qed.

(** The authenticated factory does what a factory of the admin family
    would do: at 400 its decoder is [adminErr400Decoder]'s, the two
    functions having the same body.  Functions are told apart here by what
    they compute, not by the name they are exported under. *)
Lemma authResponseDecoder_admin_decoders (eD dD : JD.Decoder) :
  authResponseDecoder eD dD (lit 200) = Return (ok200Decoder dD)
  ∧ authResponseDecoder eD dD (lit 400) = Return (adminErr400Decoder eD)
  ∧ authResponseDecoder eD dD (lit 500) = Return (internalErr500Decoder ()).
Proof. repeat split. Qed.

(** *** The server-error decoder *)

Lemma internalErr500Decoder_accepts (o : gmap string Value) (s : string) :
  o !! "_t" = Some (VStr "ServerError") → o !! "errorID" = Some (VStr s) →
  JD.decode (internalErr500Decoder ()) (VObj o)
  = JD.Ok (envelope_value "ServerError" "errorID" (VStr s)).
Proof.
  intros Ht Hs. unfold internalErr500Decoder.
  rewrite (tagged_object_accepts _ _ _ errorID_not_tag o (VStr s) Ht).
  - reflexivity.
  - by rewrite (get_Some _ _ _ Hs).
Qed.

Lemma internalErr500Decoder_rejects_tag (o : gmap string Value) :
  o !! "_t" ≠ Some (VStr "ServerError") →
  JD.rejects (internalErr500Decoder ()) (VObj o).
Proof. apply (tagged_object_wrong_tag _ _ _ errorID_not_tag). Qed.

Lemma internalErr500Decoder_rejects_errorID (o : gmap string Value) :
  (∀ s, o !! "errorID" ≠ Some (VStr s)) →
  JD.rejects (internalErr500Decoder ()) (VObj o).
Proof.
  intros Hs. apply (tagged_object_wrong_field _ _ _ errorID_not_tag).
  unfold JD.rejects, get.
  destruct (o !! "errorID") as [[]|] eqn:E; simpl; eauto.
  by destruct (Hs s).
Qed.

(** Whether an object carries the tag [tag] can be decided. *)
Lemma tag_dec (o : gmap string Value) (tag : string) :
  {o !! "_t" = Some (VStr tag)} + {o !! "_t" ≠ Some (VStr tag)}.
Proof.
  destruct (o !! "_t") as [[]|]; try (right; congruence).
  destruct (decide (s = tag)) as [->|]; [by left | right; congruence].
Qed.

(* ===================================================================== *)
(** ** The status-code contract *)
(* ===================================================================== *)

(** C1.  Applied to a status that is none of 200, 400 and 500, the function
    returned by [responseDecoder] and the one returned by
    [authResponseDecoder] throw: no decoder is returned, and since the
    argument is the status alone, no payload has been looked at.  Applied to
    200, 400 and 500 they return the Ok decoder, the Err (for the
    authenticated factory: AuthErr) decoder and the ServerError decoder. *)
Theorem status_selects_decoder
    (errorDecoder dataDecoder : JD.Decoder) (status : number) :
  (known_status status = false →
     (∃ e, responseDecoder errorDecoder dataDecoder status = Throw e)
     ∧ (∃ e, authResponseDecoder errorDecoder dataDecoder status = Throw e)
     ∧ (∀ d, responseDecoder errorDecoder dataDecoder status ≠ Return d)
     ∧ (∀ d, authResponseDecoder errorDecoder dataDecoder status ≠ Return d))
  ∧ (number_equal status (lit 200) = true →
       responseDecoder errorDecoder dataDecoder status
       = Return (ok200Decoder dataDecoder)
       ∧ authResponseDecoder errorDecoder dataDecoder status
         = Return (ok200Decoder dataDecoder))
  ∧ (number_equal status (lit 400) = true →
       responseDecoder errorDecoder dataDecoder status
       = Return (err400Decoder errorDecoder)
       ∧ authResponseDecoder errorDecoder dataDecoder status
         = Return (authErr400Decoder errorDecoder))
  ∧ (number_equal status (lit 500) = true →
       responseDecoder errorDecoder dataDecoder status
       = Return (internalErr500Decoder ())
       ∧ authResponseDecoder errorDecoder dataDecoder status
         = Return (internalErr500Decoder ())).
Proof.
  split; [intros Hs | split; [intros Hs | split; intros Hs]].
  - rewrite responseDecoder_unknown_status,
            authResponseDecoder_unknown_status by done.
    repeat split; eauto; discriminate.
  - unfold responseDecoder, authResponseDecoder. by rewrite Hs.
  - unfold responseDecoder, authResponseDecoder.
    by rewrite (number_equal_lit_other status 400 200), Hs.
  - unfold responseDecoder, authResponseDecoder.
    by rewrite (number_equal_lit_other status 500 200),
               (number_equal_lit_other status 500 400), Hs.
Qed.

(** Status 201 throws in both factories; 200, 400 and 500 select. *)
Lemma status_selects_decoder_witness :
  (∃ e, responseDecoder JD.string JD.unknown (lit 201) = Throw e)
  ∧ (∃ e, authResponseDecoder JD.string JD.unknown (lit 201) = Throw e)
  ∧ responseDecoder JD.string JD.unknown (lit 200)
    = Return (ok200Decoder JD.unknown)
  ∧ authResponseDecoder JD.string JD.unknown (lit 400)
    = Return (authErr400Decoder JD.string)
  ∧ responseDecoder JD.string JD.unknown (lit 500)
    = Return (internalErr500Decoder ()).
Proof.
  pose proof (status_selects_decoder JD.string JD.unknown (lit 201)) as H201.
  destruct H201 as [H201 _]. destruct (H201 eq_refl) as (Hr & Ha & _).
  split; [exact Hr|]. split; [exact Ha|].
  split; [|split].
  - apply (status_selects_decoder JD.string JD.unknown (lit 200)).
    reflexivity.
  - apply (status_selects_decoder JD.string JD.unknown (lit 400)).
    reflexivity.
  - apply (status_selects_decoder JD.string JD.unknown (lit 500)).
    reflexivity.
Defined.

(** C10.  The error thrown for a status outside 200, 400 and 500 is one and
    the same for every such status and for both factories: its message is
    the text [Invalid status number: `${status}`] as written, with the
    placeholder left in and no status value put in its place. *)
Theorem invalid_status_message_is_fixed
    (errorDecoder dataDecoder : JD.Decoder) (status1 status2 : number) :
  known_status status1 = false → known_status status2 = false →
  ∃ e : Error,
    message e = "Invalid status number: `${status}`"
    ∧ responseDecoder errorDecoder dataDecoder status1 = Throw e
    ∧ responseDecoder errorDecoder dataDecoder status2 = Throw e
    ∧ authResponseDecoder errorDecoder dataDecoder status1 = Throw e
    ∧ authResponseDecoder errorDecoder dataDecoder status2 = Throw e.
Proof.
  intros H1 H2. exists (new_Error invalid_status_message).
  split; [reflexivity|].
  by rewrite !responseDecoder_unknown_status,
             !authResponseDecoder_unknown_status.
Qed.

(** Statuses 201 and 404 give the same error. *)
Lemma invalid_status_message_is_fixed_witness :
  ∃ e : Error,
    message e = "Invalid status number: `${status}`"
    ∧ responseDecoder JD.string JD.unknown (lit 201) = Throw e
    ∧ responseDecoder JD.string JD.unknown (lit 404) = Throw e
    ∧ authResponseDecoder JD.string JD.unknown (lit 201) = Throw e
    ∧ authResponseDecoder JD.string JD.unknown (lit 404) = Throw e.
Proof.
  apply (invalid_status_message_is_fixed JD.string JD.unknown
           (lit 201) (lit 404)); reflexivity.
Defined.

(* ===================================================================== *)
(** ** The envelope decoders *)
(* ===================================================================== *)

(** C2.  On a payload [{ _t: "Ok", data: d }] the status-200 decoder
    succeeds with [{ _t: "Ok", data: d' }] when [dataDecoder] turns [d] into
    [d'], and fails when [dataDecoder] rejects [d], although [_t] and [data]
    are both there. *)
Theorem ok200_validates_data
    (dataDecoder : JD.Decoder) (o : gmap string Value) (d : Value) :
  o !! "_t" = Some (VStr "Ok") → o !! "data" = Some d →
  (∀ d', JD.decode dataDecoder d = JD.Ok d' →
         JD.decode (ok200Decoder dataDecoder) (VObj o)
         = JD.Ok (VObj {["_t" := VStr "Ok"; "data" := d']}))
  ∧ (JD.rejects dataDecoder d →
     JD.rejects (ok200Decoder dataDecoder) (VObj o)).
Proof.
  intros Ht Hd. rewrite ok200Decoder_envelope. split.
  - intros d' Hd'. by apply (envelope_accepts _ _ _ data_not_tag o d).
  - intros Hrej. apply (envelope_rejects_field _ _ _ data_not_tag); [done|].
    by rewrite (get_Some _ _ _ Hd).
Qed.

(** With [JD.string] for the data: a string is kept, [null] is refused. *)
Lemma ok200_validates_data_witness :
  JD.decode (ok200Decoder JD.string)
            (VObj {["_t" := VStr "Ok"; "data" := VStr "x"]})
  = JD.Ok (VObj {["_t" := VStr "Ok"; "data" := VStr "x"]})
  ∧ JD.rejects (ok200Decoder JD.string)
               (VObj {["_t" := VStr "Ok"; "data" := VNull]}).
Proof.
  split.
  - apply (ok200_validates_data JD.string
             {["_t" := VStr "Ok"; "data" := VStr "x"]} (VStr "x"));
      reflexivity.
  - apply (ok200_validates_data JD.string
             {["_t" := VStr "Ok"; "data" := VNull]} VNull);
      [reflexivity | reflexivity | eexists; reflexivity].
Defined.

(** C3.  On [{ _t: "Err", code: "UNAUTHORISED" }] the authenticated decoder
    succeeds with [{ _t: "Err", code: "UNAUTHORISED" }] whatever
    [errorDecoder] is, the literal being tried before it; the plain decoder
    fails as soon as [errorDecoder] does not accept ["UNAUTHORISED"]. *)
Theorem unauthorised_only_in_auth_family
    (errorDecoder : JD.Decoder) (o : gmap string Value) :
  o !! "_t" = Some (VStr "Err") → o !! "code" = Some (VStr "UNAUTHORISED") →
  (JD.rejects errorDecoder (VStr "UNAUTHORISED") →
   JD.rejects (err400Decoder errorDecoder) (VObj o))
  ∧ JD.decode (authErr400Decoder errorDecoder) (VObj o)
    = JD.Ok (VObj {["_t" := VStr "Err"; "code" := VStr "UNAUTHORISED"]}).
Proof.
  intros Ht Hc. split.
  - intros Hrej. rewrite err400Decoder_envelope.
    apply (envelope_rejects_field _ _ _ code_not_tag); [done|].
    by rewrite (get_Some _ _ _ Hc).
  - rewrite authErr400Decoder_envelope.
    apply (envelope_accepts _ _ _ code_not_tag o (VStr "UNAUTHORISED"));
      [done | done |].
    apply authCodeDecoder_literal.
Qed.

(** With an [errorDecoder] whose only code is ["NOT_FOUND"]. *)
Lemma unauthorised_only_in_auth_family_witness :
  JD.rejects (err400Decoder (JD.constant (VStr "NOT_FOUND")))
             (VObj {["_t" := VStr "Err"; "code" := VStr "UNAUTHORISED"]})
  ∧ JD.decode (authErr400Decoder (JD.constant (VStr "NOT_FOUND")))
              (VObj {["_t" := VStr "Err"; "code" := VStr "UNAUTHORISED"]})
    = JD.Ok (VObj {["_t" := VStr "Err"; "code" := VStr "UNAUTHORISED"]}).
Proof.
  destruct (unauthorised_only_in_auth_family (JD.constant (VStr "NOT_FOUND"))
              {["_t" := VStr "Err"; "code" := VStr "UNAUTHORISED"]})
    as [Hplain Hauth]; [reflexivity | reflexivity |].
  split; [apply Hplain; eexists; reflexivity | exact Hauth].
Defined.

(** C4, as the spec states it, fails: an object without a [code] field is
    accepted by the plain status-400 decoder when [errorDecoder] accepts
    [undefined].  The [code] field is declared with [JD.unknown], which lets
    the key be absent; [errorDecoder] then verifies [undefined]. *)
Lemma err400_accepts_missing_code :
  ({["_t" := VStr "Err"]} : gmap string Value) !! "code" = None
  ∧ JD.decode (err400Decoder JD.unknown) (VObj {["_t" := VStr "Err"]})
    = JD.Ok (VObj {["_t" := VStr "Err"; "code" := VUndefined]})
  ∧ ¬ JD.rejects (err400Decoder JD.unknown) (VObj {["_t" := VStr "Err"]})
  ∧ JD.decode
      (err400Decoder
         (JD.either (JD.constant VUndefined) (JD.constant (VStr "NOT_FOUND"))))
      (VObj {["_t" := VStr "Err"]})
    = JD.Ok (VObj {["_t" := VStr "Err"; "code" := VUndefined]}).
Proof.
  split; [reflexivity|]. split; [reflexivity|]. split; [|reflexivity].
  intros [a Ha]. discriminate Ha.
Qed.

(** C4, amended.  On [{ _t: "Err", code: c }] with [c] accepted by
    [errorDecoder] as [c'], the plain status-400 decoder succeeds with
    [{ _t: "Err", code: c' }].  An object whose tag is absent or is not
    ["Err"] is rejected.  An object without a [code] field is rejected when
    [errorDecoder] rejects [undefined]; when it carries the tag ["Err"], it
    is rejected only then. *)
Theorem err400_plain_decoder
    (errorDecoder : JD.Decoder) (o : gmap string Value) :
  (∀ c c', o !! "_t" = Some (VStr "Err") → o !! "code" = Some c →
           JD.decode errorDecoder c = JD.Ok c' →
           JD.decode (err400Decoder errorDecoder) (VObj o)
           = JD.Ok (VObj {["_t" := VStr "Err"; "code" := c']}))
  ∧ (o !! "_t" ≠ Some (VStr "Err") →
     JD.rejects (err400Decoder errorDecoder) (VObj o))
  ∧ (o !! "code" = None → JD.rejects errorDecoder VUndefined →
     JD.rejects (err400Decoder errorDecoder) (VObj o))
  ∧ (o !! "_t" = Some (VStr "Err") → o !! "code" = None →
     JD.rejects (err400Decoder errorDecoder) (VObj o) →
     JD.rejects errorDecoder VUndefined).
Proof.
  rewrite err400Decoder_envelope. repeat apply conj.
  - intros c c' Ht Hc Hd. by apply (envelope_accepts _ _ _ code_not_tag o c).
  - apply (envelope_rejects_tag _ _ _ code_not_tag).
  - intros Hc Hrej. destruct (tag_dec o "Err") as [Ht|Ht].
    + apply (envelope_rejects_field _ _ _ code_not_tag); [done|].
      by rewrite (get_None _ _ Hc).
    + by apply (envelope_rejects_tag _ _ _ code_not_tag).
  - intros Ht Hc [a Ha].
    rewrite (envelope_tagged _ _ _ code_not_tag o Ht), (get_None _ _ Hc) in Ha.
    unfold JD.rejects.
    destruct (JD.decode errorDecoder VUndefined); [discriminate | eauto].
Qed.

(** With an [errorDecoder] whose only code is ["NOT_FOUND"]. *)
Lemma err400_plain_decoder_witness :
  JD.decode (err400Decoder (JD.constant (VStr "NOT_FOUND")))
            (VObj {["_t" := VStr "Err"; "code" := VStr "NOT_FOUND"]})
  = JD.Ok (VObj {["_t" := VStr "Err"; "code" := VStr "NOT_FOUND"]})
  ∧ JD.rejects (err400Decoder (JD.constant (VStr "NOT_FOUND")))
               (VObj {["_t" := VStr "Ok"; "code" := VStr "NOT_FOUND"]})
  ∧ JD.rejects (err400Decoder (JD.constant (VStr "NOT_FOUND")))
               (VObj {["_t" := VStr "Err"]}).
Proof.
  split; [|split].
  - destruct (err400_plain_decoder (JD.constant (VStr "NOT_FOUND"))
                {["_t" := VStr "Err"; "code" := VStr "NOT_FOUND"]})
      as (Hok & _).
    apply (Hok (VStr "NOT_FOUND")); reflexivity.
  - destruct (err400_plain_decoder (JD.constant (VStr "NOT_FOUND"))
                {["_t" := VStr "Ok"; "code" := VStr "NOT_FOUND"]})
      as (_ & Htag & _).
    apply Htag. intros H. vm_compute in H. discriminate H.
  - destruct (err400_plain_decoder (JD.constant (VStr "NOT_FOUND"))
                {["_t" := VStr "Err"]})
      as (_ & _ & Hmissing & _).
    apply Hmissing; [reflexivity | eexists; reflexivity].
Defined.

(** C5.  On [{ _t: "ServerError", errorID: s }] with [s] a string the
    status-500 decoder succeeds with [{ _t: "ServerError", errorID: s }].
    Both factories return this one decoder at status 500 whatever
    [errorDecoder] and [dataDecoder] they were given.  A payload whose
    [errorID] is not a string, or whose tag is not ["ServerError"], is
    rejected. *)
Theorem server_error_decoder
    (errorDecoder dataDecoder : JD.Decoder) (o : gmap string Value) :
  (∀ s, o !! "_t" = Some (VStr "ServerError") →
        o !! "errorID" = Some (VStr s) →
        JD.decode (internalErr500Decoder ()) (VObj o)
        = JD.Ok (VObj {["_t" := VStr "ServerError"; "errorID" := VStr s]}))
  ∧ responseDecoder errorDecoder dataDecoder (lit 500)
    = Return (internalErr500Decoder ())
  ∧ authResponseDecoder errorDecoder dataDecoder (lit 500)
    = Return (internalErr500Decoder ())
  ∧ ((∀ s, o !! "errorID" ≠ Some (VStr s)) →
     JD.rejects (internalErr500Decoder ()) (VObj o))
  ∧ (o !! "_t" ≠ Some (VStr "ServerError") →
     JD.rejects (internalErr500Decoder ()) (VObj o)).
Proof.
  repeat apply conj.
  - intros s. apply internalErr500Decoder_accepts.
  - reflexivity.
  - reflexivity.
  - apply internalErr500Decoder_rejects_errorID.
  - apply internalErr500Decoder_rejects_tag.
Qed.

(** An error id is kept; a numeric [errorID] and an ["Err"] tag are
    refused. *)
Lemma server_error_decoder_witness :
  JD.decode (internalErr500Decoder ())
            (VObj {["_t" := VStr "ServerError"; "errorID" := VStr "e-17"]})
  = JD.Ok (VObj {["_t" := VStr "ServerError"; "errorID" := VStr "e-17"]})
  ∧ JD.rejects (internalErr500Decoder ())
               (VObj {["_t" := VStr "ServerError";
                       "errorID" := VNum (lit 17)]})
  ∧ JD.rejects (internalErr500Decoder ())
               (VObj {["_t" := VStr "Err"; "errorID" := VStr "e-17"]}).
Proof.
  split; [|split].
  - destruct (server_error_decoder JD.unknown JD.unknown
                {["_t" := VStr "ServerError"; "errorID" := VStr "e-17"]})
      as (Hok & _).
    apply Hok; reflexivity.
  - destruct (server_error_decoder JD.unknown JD.unknown
                {["_t" := VStr "ServerError"; "errorID" := VNum (lit 17)]})
      as (_ & _ & _ & Hid & _).
    apply Hid. intros s H. vm_compute in H. discriminate H.
  - destruct (server_error_decoder JD.unknown JD.unknown
                {["_t" := VStr "Err"; "errorID" := VStr "e-17"]})
      as (_ & _ & _ & _ & Htag).
    apply Htag. intros H. vm_compute in H. discriminate H.
Defined.

(** C9.  Fields beyond the declared ones are ignored: on a payload that
    carries the two envelope fields with valid values and any other fields
    besides, each of the five envelope decoders succeeds, and the decoded
    object has the two declared fields and nothing else. *)
Theorem extra_fields_are_dropped
    (errorDecoder dataDecoder : JD.Decoder) (extras : gmap string Value) :
  (∀ d d', JD.decode dataDecoder d = JD.Ok d' →
     JD.decode (ok200Decoder dataDecoder) (payload "Ok" "data" d extras)
     = JD.Ok (envelope_value "Ok" "data" d'))
  ∧ (∀ c c', JD.decode errorDecoder c = JD.Ok c' →
       JD.decode (err400Decoder errorDecoder) (payload "Err" "code" c extras)
       = JD.Ok (envelope_value "Err" "code" c'))
  ∧ (∀ c c', JD.decode (authCodeDecoder errorDecoder) c = JD.Ok c' →
       JD.decode (authErr400Decoder errorDecoder)
                 (payload "Err" "code" c extras)
       = JD.Ok (envelope_value "Err" "code" c')
       ∧ JD.decode (adminErr400Decoder errorDecoder)
                   (payload "Err" "code" c extras)
         = JD.Ok (envelope_value "Err" "code" c'))
  ∧ (∀ s, JD.decode (internalErr500Decoder ())
                    (payload "ServerError" "errorID" (VStr s) extras)
          = JD.Ok (envelope_value "ServerError" "errorID" (VStr s)))
  ∧ (∀ tag key v,
       keys (JD.Ok (envelope_value tag key v)) = Some {["_t"; key]}).
Proof.
  repeat apply conj.
  - intros d d'. rewrite ok200Decoder_envelope.
    apply (envelope_payload _ _ _ data_not_tag).
  - intros c c'. rewrite err400Decoder_envelope.
    apply (envelope_payload _ _ _ code_not_tag).
  - intros c c' Hc.
    rewrite authErr400Decoder_envelope, adminErr400Decoder_envelope.
    split; by apply (envelope_payload _ _ _ code_not_tag).
  - intros s. unfold payload. apply internalErr500Decoder_accepts.
    + apply lookup_union_Some_l. by simplify_map_eq.
    + apply lookup_union_Some_l. by simplify_map_eq.
  - apply envelope_value_keys.
Qed.

(** [{ _t: "Ok", data: "x", extra: null, trace: 7 }] decodes to
    [{ _t: "Ok", data: "x" }]. *)
Lemma extra_fields_are_dropped_witness :
  JD.decode (ok200Decoder JD.string)
            (VObj {["_t" := VStr "Ok"; "data" := VStr "x";
                    "extra" := VNull; "trace" := VNum (lit 7)]})
  = JD.Ok (VObj {["_t" := VStr "Ok"; "data" := VStr "x"]})
  ∧ keys (JD.Ok (VObj {["_t" := VStr "Ok"; "data" := VStr "x"]}))
    = Some {["_t"; "data"]}.
Proof.
  destruct (extra_fields_are_dropped JD.string JD.string
              {["extra" := VNull; "trace" := VNum (lit 7)]})
    as (Hok & _ & _ & _ & Hkeys).
  split.
  - apply (Hok (VStr "x") (VStr "x")). reflexivity.
  - apply (Hkeys "Ok" "data" (VStr "x")).
Defined.

(** C8.  [authErr400Decoder] and [adminErr400Decoder] agree: on every
    payload and for every [errorDecoder], either both fail, with the same
    description, or both succeed with the same value. *)
Theorem auth_and_admin_err_decoders_agree
    (errorDecoder : JD.Decoder) (blob : Value) :
  JD.decode (authErr400Decoder errorDecoder) blob
  = JD.decode (adminErr400Decoder errorDecoder) blob.
Proof.
  by rewrite authErr400Decoder_envelope, adminErr400Decoder_envelope.
Qed.

(** C6.  The two no-op decoders reject every value, the empty object and
    [null] among them. *)
Theorem no_op_decoders_reject_everything (blob : Value) :
  JD.rejects noUrlParamsDecoder blob
  ∧ JD.rejects noBodyParamsDecoder blob
  ∧ JD.rejects noUrlParamsDecoder (VObj ∅)
  ∧ JD.rejects noBodyParamsDecoder (VObj ∅)
  ∧ JD.rejects noUrlParamsDecoder VNull
  ∧ JD.rejects noBodyParamsDecoder VNull.
Proof. repeat split; eexists; reflexivity. Qed.

(* ===================================================================== *)
(** ** Further lemmas on the envelope pattern *)
(* ===================================================================== *)

Lemma get_VStr_lookup (o : gmap string Value) (k s : string) :
  get o k = VStr s → o !! k = Some (VStr s).
Proof.
  unfold get. destruct (o !! k) as [v|]; simpl; [congruence | discriminate].
Qed.

Lemma rejects_accepted (d : JD.Decoder) (blob : Value) :
  JD.rejects d blob ↔ accepted (JD.decode d blob) = None.
Proof.
  unfold JD.rejects. destruct (JD.decode d blob); simpl; split;
    try done; eauto. intros [a Ha]. discriminate Ha.
Qed.

(** What [authCodeDecoder] accepts: the literal, as itself, and otherwise
    what [errorDecoder] accepts. *)
Lemma authCodeDecoder_inv (errorDecoder : JD.Decoder) (c c' : Value) :
  JD.decode (authCodeDecoder errorDecoder) c = JD.Ok c' →
  (c = VStr "UNAUTHORISED" ∧ c' = VStr "UNAUTHORISED")
  ∨ (c ≠ VStr "UNAUTHORISED" ∧ JD.decode errorDecoder c = JD.Ok c').
Proof.
  unfold authCodeDecoder. cbn [JD.either JD.decode JD.constant].
  destruct (strict_equal c (VStr "UNAUTHORISED")) eqn:E.
  - apply strict_equal_VStr in E. intros [= <-]. by left.
  - intros H. right. split.
    + intros ->. discriminate E.
    + destruct (JD.decode errorDecoder c); [done | discriminate H].
Qed.

Lemma authCodeDecoder_rejects (errorDecoder : JD.Decoder) (c : Value) :
  c ≠ VStr "UNAUTHORISED" →
  JD.rejects (authCodeDecoder errorDecoder) c ↔ JD.rejects errorDecoder c.
Proof.
  intros Hc. unfold JD.rejects, authCodeDecoder.
  cbn [JD.either JD.decode JD.constant].
  destruct (strict_equal c (VStr "UNAUTHORISED")) eqn:E.
  - by apply strict_equal_VStr in E.
  - destruct (JD.decode errorDecoder c); split; intros [a Ha];
      try discriminate Ha; eauto.
Qed.

Lemma authCodeDecoder_stable (errorDecoder : JD.Decoder) :
  stable errorDecoder → stable (authCodeDecoder errorDecoder).
Proof.
  intros Hst c c' Hc.
  destruct (authCodeDecoder_inv _ _ _ Hc) as [[_ ->]|[_ Hd]].
  - apply authCodeDecoder_literal.
  - destruct (strict_equal c' (VStr "UNAUTHORISED")) eqn:E.
    + apply strict_equal_VStr in E. subst c'. apply authCodeDecoder_literal.
    + apply authCodeDecoder_other; [|by apply (Hst c)].
      intros ->. discriminate E.
Qed.

Section EnvelopeInversion.
Variables (tag key : string) (inner : JD.Decoder).
Hypothesis key_not_tag : key ≠ "_t".

(** Everything [envelope] accepts is an object with the right tag whose
    field, read with an absent key as [undefined], [inner] accepts. *)
Lemma envelope_inv (blob r : Value) :
  JD.decode (envelope tag key inner) blob = JD.Ok r →
  ∃ o v', blob = VObj o ∧ o !! "_t" = Some (VStr tag)
          ∧ JD.decode inner (get o key) = JD.Ok v'
          ∧ r = envelope_value tag key v'.
Proof.
  intros Hr. destruct blob as [| | | | | |o|]; try discriminate Hr.
  destruct (tag_dec o tag) as [Ht|Ht].
  - rewrite (envelope_tagged tag key inner key_not_tag o Ht) in Hr.
    destruct (JD.decode inner (get o key)) as [v'|] eqn:E;
      [|discriminate Hr].
    injection Hr as <-. by exists o, v'.
  - destruct (envelope_rejects_tag tag key inner key_not_tag o Ht) as [a Ha].
    congruence.
Qed.

(** The outcome depends on the payload through the two declared keys
    only. *)
Lemma envelope_declared_keys (o1 o2 : gmap string Value) :
  get o1 "_t" = get o2 "_t" → get o1 key = get o2 key →
  accepted (JD.decode (envelope tag key inner) (VObj o1))
  = accepted (JD.decode (envelope tag key inner) (VObj o2)).
Proof.
  intros Ht Hk. destruct (tag_dec o1 tag) as [H1|H1].
  - assert (H2 : o2 !! "_t" = Some (VStr tag)).
    { apply get_VStr_lookup. rewrite <- Ht. by apply get_Some. }
    rewrite (envelope_tagged tag key inner key_not_tag o1 H1),
            (envelope_tagged tag key inner key_not_tag o2 H2).
    by rewrite Hk.
  - assert (H2 : o2 !! "_t" ≠ Some (VStr tag)).
    { intros H2. apply H1, get_VStr_lookup. rewrite Ht. by apply get_Some. }
    apply (envelope_rejects_tag tag key inner key_not_tag), rejects_accepted
      in H1, H2.
    by rewrite H1, H2.
Qed.

(** A decoded envelope is decoded to itself when [inner] is stable. *)
Lemma envelope_stable : stable inner → stable (envelope tag key inner).
Proof.
  intros Hst blob r Hr.
  destruct (envelope_inv blob r Hr) as (o & v' & _ & _ & Hv & ->).
  unfold envelope_value.
  apply (envelope_accepts tag key inner key_not_tag _ v').
  - by simplify_map_eq.
  - by simplify_map_eq.
  - by apply (Hst (get o key)).
Qed.

End EnvelopeInversion.

(** Everything the server-error decoder accepts. *)
Lemma internalErr500Decoder_inv (blob r : Value) :
  JD.decode (internalErr500Decoder ()) blob = JD.Ok r →
  ∃ o s, blob = VObj o ∧ o !! "_t" = Some (VStr "ServerError")
         ∧ o !! "errorID" = Some (VStr s)
         ∧ r = envelope_value "ServerError" "errorID" (VStr s).
Proof.
  intros Hr. destruct blob as [| | | | | |o|]; try discriminate Hr.
  destruct (tag_dec o "ServerError") as [Ht|Ht].
  - destruct (o !! "errorID") as [v|] eqn:E.
    + destruct v as [| | | |s| | |];
        try (destruct (internalErr500Decoder_rejects_errorID o) as [a Ha];
             [intros s'; congruence | congruence]).
      rewrite (internalErr500Decoder_accepts o s Ht E) in Hr.
      injection Hr as <-. by exists o, s.
    + destruct (internalErr500Decoder_rejects_errorID o) as [a Ha];
        [intros s'; congruence | congruence].
  - destruct (internalErr500Decoder_rejects_tag o Ht) as [a Ha]. congruence.
Qed.

Lemma authCodeDecoder_accepted (errorDecoder : JD.Decoder) (c : Value) :
  c ≠ VStr "UNAUTHORISED" →
  accepted (JD.decode (authCodeDecoder errorDecoder) c)
  = accepted (JD.decode errorDecoder c).
Proof.
  intros Hc. unfold authCodeDecoder. cbn [JD.either JD.decode JD.constant].
  destruct (strict_equal c (VStr "UNAUTHORISED")) eqn:E.
  - by apply strict_equal_VStr in E.
  - by destruct (JD.decode errorDecoder c).
Qed.

Lemma envelope_tagged_accepted
    (tag key : string) (inner : JD.Decoder) (o : gmap string Value) :
  key ≠ "_t" → o !! "_t" = Some (VStr tag) →
  accepted (JD.decode (envelope tag key inner) (VObj o))
  = envelope_value tag key <$> accepted (JD.decode inner (get o key)).
Proof.
  intros Hk Ht. rewrite (envelope_tagged tag key inner Hk o Ht).
  by destruct (JD.decode inner (get o key)).
Qed.

(** The server-error decoder, too, reads the payload through its two
    declared keys only. *)
Lemma internalErr500Decoder_declared_keys (o1 o2 : gmap string Value) :
  get o1 "_t" = get o2 "_t" → get o1 "errorID" = get o2 "errorID" →
  accepted (JD.decode (internalErr500Decoder ()) (VObj o1))
  = accepted (JD.decode (internalErr500Decoder ()) (VObj o2)).
Proof.
  intros Ht Hk. unfold internalErr500Decoder.
  destruct (tag_dec o1 "ServerError") as [H1|H1].
  - assert (H2 : o2 !! "_t" = Some (VStr "ServerError")).
    { apply get_VStr_lookup. rewrite <- Ht. by apply get_Some. }
    destruct (JD.decode JD.string (get o1 "errorID")) as [v|a] eqn:E.
    + rewrite (tagged_object_accepts _ _ _ errorID_not_tag o1 v H1 E).
      rewrite Hk in E.
      by rewrite (tagged_object_accepts _ _ _ errorID_not_tag o2 v H2 E).
    + assert (R1 : JD.rejects JD.string (get o1 "errorID")) by by exists a.
      assert (R2 : JD.rejects JD.string (get o2 "errorID"))
        by (rewrite <- Hk; by exists a).
      apply (tagged_object_wrong_field "ServerError" _ _ errorID_not_tag),
        rejects_accepted in R1, R2.
      by rewrite R1, R2.
  - assert (H2 : o2 !! "_t" ≠ Some (VStr "ServerError")).
    { intros H2. apply H1, get_VStr_lookup. rewrite Ht. by apply get_Some. }
    apply (tagged_object_wrong_tag "ServerError" "errorID" JD.string
             errorID_not_tag), rejects_accepted in H1, H2.
    by rewrite H1, H2.
Qed.

(* ===================================================================== *)
(** ** Beyond the claims: edge behaviour of the envelope decoders *)
(* ===================================================================== *)

(** X2.  An object tagged ["Ok"] that has no [data] field is not rejected
    for that: [dataDecoder] is asked about [undefined].  The object is
    accepted, with [dataDecoder]'s output as [data], when [dataDecoder]
    accepts [undefined], and rejected exactly when it rejects [undefined]. *)
Theorem ok200_absent_data
    (dataDecoder : JD.Decoder) (o : gmap string Value) :
  o !! "_t" = Some (VStr "Ok") → o !! "data" = None →
  (∀ d', JD.decode dataDecoder VUndefined = JD.Ok d' →
         JD.decode (ok200Decoder dataDecoder) (VObj o)
         = JD.Ok (VObj {["_t" := VStr "Ok"; "data" := d']}))
  ∧ (JD.rejects (ok200Decoder dataDecoder) (VObj o)
     ↔ JD.rejects dataDecoder VUndefined).
Proof.
  intros Ht Hd. rewrite ok200Decoder_envelope.
  rewrite !rejects_accepted,
    (envelope_tagged_accepted _ _ _ o data_not_tag Ht),
    (envelope_tagged _ _ _ data_not_tag o Ht), (get_None _ _ Hd).
  split.
  - by intros d' ->.
  - by destruct (JD.decode dataDecoder VUndefined).
Qed.

(** With [JD.string] the tag alone is refused; with [JD.unknown] it is
    accepted, [data] being [undefined]. *)
Lemma ok200_absent_data_witness :
  JD.rejects (ok200Decoder JD.string) (VObj {["_t" := VStr "Ok"]})
  ∧ JD.decode (ok200Decoder JD.unknown) (VObj {["_t" := VStr "Ok"]})
    = JD.Ok (VObj {["_t" := VStr "Ok"; "data" := VUndefined]}).
Proof.
  split.
  - destruct (ok200_absent_data JD.string {["_t" := VStr "Ok"]})
      as [_ Hrej]; [reflexivity | reflexivity |].
    apply Hrej. eexists. reflexivity.
  - destruct (ok200_absent_data JD.unknown {["_t" := VStr "Ok"]})
      as [Hok _]; [reflexivity | reflexivity |].
    apply Hok. reflexivity.
Defined.

(** X3.  An object tagged ["Err"] that has no [code] field is rejected by
    the authenticated and by the admin decoder exactly when [errorDecoder]
    rejects [undefined]: [undefined] is not the literal ["UNAUTHORISED"], so
    the decision falls to [errorDecoder]. *)
Theorem authErr400_absent_code
    (errorDecoder : JD.Decoder) (o : gmap string Value) :
  o !! "_t" = Some (VStr "Err") → o !! "code" = None →
  (JD.rejects (authErr400Decoder errorDecoder) (VObj o)
   ↔ JD.rejects errorDecoder VUndefined)
  ∧ (JD.rejects (adminErr400Decoder errorDecoder) (VObj o)
     ↔ JD.rejects errorDecoder VUndefined)
  ∧ (∀ c', JD.decode errorDecoder VUndefined = JD.Ok c' →
       JD.decode (authErr400Decoder errorDecoder) (VObj o)
       = JD.Ok (VObj {["_t" := VStr "Err"; "code" := c']})
       ∧ JD.decode (adminErr400Decoder errorDecoder) (VObj o)
         = JD.Ok (VObj {["_t" := VStr "Err"; "code" := c']})).
Proof.
  intros Ht Hc.
  rewrite authErr400Decoder_envelope, adminErr400Decoder_envelope.
  assert (Hrej : JD.rejects (envelope "Err" "code"
                               (authCodeDecoder errorDecoder)) (VObj o)
                 ↔ JD.rejects errorDecoder VUndefined).
  { rewrite !rejects_accepted,
      (envelope_tagged_accepted _ _ _ o code_not_tag Ht), (get_None _ _ Hc),
      authCodeDecoder_accepted by discriminate.
    by destruct (JD.decode errorDecoder VUndefined). }
  split; [exact Hrej|]. split; [exact Hrej|].
  intros c' Hc'.
  assert (JD.decode (envelope "Err" "code" (authCodeDecoder errorDecoder))
                    (VObj o)
          = JD.Ok (VObj {["_t" := VStr "Err"; "code" := c']})); [|done].
  rewrite (envelope_tagged _ _ _ code_not_tag o Ht), (get_None _ _ Hc).
  by rewrite (authCodeDecoder_other errorDecoder VUndefined c').
Qed.

(** With an [errorDecoder] whose only code is ["NOT_FOUND"], the tag alone
    is refused by both decoders. *)
Lemma authErr400_absent_code_witness :
  JD.rejects (authErr400Decoder (JD.constant (VStr "NOT_FOUND")))
             (VObj {["_t" := VStr "Err"]})
  ∧ JD.rejects (adminErr400Decoder (JD.constant (VStr "NOT_FOUND")))
               (VObj {["_t" := VStr "Err"]}).
Proof.
  destruct (authErr400_absent_code (JD.constant (VStr "NOT_FOUND"))
              {["_t" := VStr "Err"]})
    as (Hauth & Hadmin & _); [reflexivity | reflexivity |].
  split; [apply Hauth | apply Hadmin]; eexists; reflexivity.
Defined.

(** X4.  The tag is checked whatever the other field holds: an object whose
    [_t] is absent or is not exactly ["Ok"] is rejected by the status-200
    decoder, and one whose [_t] is absent or is not exactly ["Err"] by the
    authenticated and the admin decoder, even when [data] or [code] would
    pass. *)
Theorem wrong_tag_is_rejected
    (errorDecoder dataDecoder : JD.Decoder) (o : gmap string Value) :
  (o !! "_t" ≠ Some (VStr "Ok") →
   JD.rejects (ok200Decoder dataDecoder) (VObj o))
  ∧ (o !! "_t" ≠ Some (VStr "Err") →
     JD.rejects (authErr400Decoder errorDecoder) (VObj o)
     ∧ JD.rejects (adminErr400Decoder errorDecoder) (VObj o)).
Proof.
  rewrite ok200Decoder_envelope, authErr400Decoder_envelope,
          adminErr400Decoder_envelope.
  split.
  - apply (envelope_rejects_tag _ _ _ data_not_tag).
  - intros Ht. split; by apply (envelope_rejects_tag _ _ _ code_not_tag).
Qed.

(** The tags are compared exactly: ["ok"] is not ["Ok"], and a payload
    with the ["Ok"] tag is no ["Err"] payload. *)
Lemma wrong_tag_is_rejected_witness :
  JD.rejects (ok200Decoder JD.unknown)
             (VObj {["_t" := VStr "ok"; "data" := VStr "x"]})
  ∧ JD.rejects (authErr400Decoder JD.unknown)
               (VObj {["_t" := VStr "Ok"; "code" := VStr "UNAUTHORISED"]}).
Proof.
  split.
  - destruct (wrong_tag_is_rejected JD.unknown JD.unknown
                {["_t" := VStr "ok"; "data" := VStr "x"]}) as [Hok _].
    apply Hok. intros H. vm_compute in H. discriminate H.
  - destruct (wrong_tag_is_rejected JD.unknown JD.unknown
                {["_t" := VStr "Ok"; "code" := VStr "UNAUTHORISED"]})
      as [_ Herr].
    apply Herr. intros H. vm_compute in H. discriminate H.
Defined.

(* ===================================================================== *)
(** ** Beyond the claims: what a successful decode tells *)
(* ===================================================================== *)

(** X5.  Whatever the status-200 decoder accepts is a plain object tagged
    ["Ok"], and the result is [{ _t: "Ok", data: d' }] with [d'] the output
    of [dataDecoder] on what the object holds under [data]: nothing else is
    ever accepted and nothing else is ever returned. *)
Theorem ok200_accepts_only (dataDecoder : JD.Decoder) (blob r : Value) :
  JD.decode (ok200Decoder dataDecoder) blob = JD.Ok r →
  ∃ o d', blob = VObj o ∧ o !! "_t" = Some (VStr "Ok")
          ∧ JD.decode dataDecoder (get o "data") = JD.Ok d'
          ∧ r = VObj {["_t" := VStr "Ok"; "data" := d']}.
Proof.
  rewrite ok200Decoder_envelope. apply (envelope_inv _ _ _ data_not_tag).
Qed.

Lemma ok200_accepts_only_witness :
  ∃ o d', VObj {["_t" := VStr "Ok"; "data" := VStr "x"; "more" := VNull]}
          = VObj o
          ∧ o !! "_t" = Some (VStr "Ok")
          ∧ JD.decode JD.string (get o "data") = JD.Ok d'
          ∧ VObj {["_t" := VStr "Ok"; "data" := VStr "x"]}
            = VObj {["_t" := VStr "Ok"; "data" := d']}.
Proof.
  apply (ok200_accepts_only JD.string
           (VObj {["_t" := VStr "Ok"; "data" := VStr "x"; "more" := VNull]})
           (VObj {["_t" := VStr "Ok"; "data" := VStr "x"]})).
  reflexivity.
Defined.

(** X6.  Whatever the plain status-400 decoder accepts is a plain object
    tagged ["Err"], and the result is [{ _t: "Err", code: c' }] with [c']
    the output of [errorDecoder] on what the object holds under [code]. *)
Theorem err400_accepts_only (errorDecoder : JD.Decoder) (blob r : Value) :
  JD.decode (err400Decoder errorDecoder) blob = JD.Ok r →
  ∃ o c', blob = VObj o ∧ o !! "_t" = Some (VStr "Err")
          ∧ JD.decode errorDecoder (get o "code") = JD.Ok c'
          ∧ r = VObj {["_t" := VStr "Err"; "code" := c']}.
Proof.
  rewrite err400Decoder_envelope. apply (envelope_inv _ _ _ code_not_tag).
Qed.

Lemma err400_accepts_only_witness :
  ∃ o c', VObj {["_t" := VStr "Err"; "code" := VStr "GONE"]} = VObj o
          ∧ o !! "_t" = Some (VStr "Err")
          ∧ JD.decode JD.string (get o "code") = JD.Ok c'
          ∧ VObj {["_t" := VStr "Err"; "code" := VStr "GONE"]}
            = VObj {["_t" := VStr "Err"; "code" := c']}.
Proof.
  apply (err400_accepts_only JD.string
           (VObj {["_t" := VStr "Err"; "code" := VStr "GONE"]})
           (VObj {["_t" := VStr "Err"; "code" := VStr "GONE"]})).
  reflexivity.
Defined.

(** X7.  Whatever the authenticated or the admin status-400 decoder accepts
    is a plain object tagged ["Err"]; the resulting [code] is the literal
    ["UNAUTHORISED"] when that is what the object holds under [code], and
    otherwise the output of [errorDecoder] on what it holds there. *)
Theorem authErr400_accepts_only
    (errorDecoder : JD.Decoder) (blob r : Value) :
  JD.decode (authErr400Decoder errorDecoder) blob = JD.Ok r
  ∨ JD.decode (adminErr400Decoder errorDecoder) blob = JD.Ok r →
  ∃ o, blob = VObj o ∧ o !! "_t" = Some (VStr "Err")
       ∧ ((get o "code" = VStr "UNAUTHORISED"
           ∧ r = VObj {["_t" := VStr "Err"; "code" := VStr "UNAUTHORISED"]})
          ∨ (get o "code" ≠ VStr "UNAUTHORISED"
             ∧ ∃ c', JD.decode errorDecoder (get o "code") = JD.Ok c'
                     ∧ r = VObj {["_t" := VStr "Err"; "code" := c']})).
Proof.
  rewrite authErr400Decoder_envelope, adminErr400Decoder_envelope.
  intros Hr.
  assert (Hd : JD.decode (envelope "Err" "code"
                            (authCodeDecoder errorDecoder)) blob = JD.Ok r)
    by by destruct Hr.
  destruct (envelope_inv _ _ _ code_not_tag blob r Hd)
    as (o & c' & -> & Ht & Hc & ->).
  exists o. split; [done|]. split; [done|].
  destruct (authCodeDecoder_inv _ _ _ Hc) as [[Hu ->]|[Hu Hc']].
  - by left.
  - right. split; [done|]. by exists c'.
Qed.

Lemma authErr400_accepts_only_witness :
  ∃ o, VObj {["_t" := VStr "Err"; "code" := VStr "GONE"]} = VObj o
       ∧ o !! "_t" = Some (VStr "Err")
       ∧ ((get o "code" = VStr "UNAUTHORISED"
           ∧ VObj {["_t" := VStr "Err"; "code" := VStr "GONE"]}
             = VObj {["_t" := VStr "Err"; "code" := VStr "UNAUTHORISED"]})
          ∨ (get o "code" ≠ VStr "UNAUTHORISED"
             ∧ ∃ c', JD.decode JD.string (get o "code") = JD.Ok c'
                     ∧ VObj {["_t" := VStr "Err"; "code" := VStr "GONE"]}
                       = VObj {["_t" := VStr "Err"; "code" := c']})).
Proof.
  apply (authErr400_accepts_only JD.string
           (VObj {["_t" := VStr "Err"; "code" := VStr "GONE"]})
           (VObj {["_t" := VStr "Err"; "code" := VStr "GONE"]})).
  left. reflexivity.
Defined.

(** X8.  Whatever the status-500 decoder accepts is a plain object tagged
    ["ServerError"] whose [errorID] is a string [s], and the result is
    [{ _t: "ServerError", errorID: s }] with that same string. *)
Theorem internalErr500_accepts_only (blob r : Value) :
  JD.decode (internalErr500Decoder ()) blob = JD.Ok r →
  ∃ o s, blob = VObj o ∧ o !! "_t" = Some (VStr "ServerError")
         ∧ o !! "errorID" = Some (VStr s)
         ∧ r = VObj {["_t" := VStr "ServerError"; "errorID" := VStr s]}.
Proof. apply internalErr500Decoder_inv. Qed.

Lemma internalErr500_accepts_only_witness :
  ∃ o s, VObj {["_t" := VStr "ServerError"; "errorID" := VStr "e-17"]}
         = VObj o
         ∧ o !! "_t" = Some (VStr "ServerError")
         ∧ o !! "errorID" = Some (VStr s)
         ∧ VObj {["_t" := VStr "ServerError"; "errorID" := VStr "e-17"]}
           = VObj {["_t" := VStr "ServerError"; "errorID" := VStr s]}.
Proof.
  apply (internalErr500_accepts_only
           (VObj {["_t" := VStr "ServerError"; "errorID" := VStr "e-17"]})
           (VObj {["_t" := VStr "ServerError"; "errorID" := VStr "e-17"]})).
  reflexivity.
Defined.

(** X9.  The decoders of different statuses exclude one another: a payload
    accepted by the status-200 decoder is rejected by every status-400
    decoder and by the status-500 decoder, one accepted by a status-400
    decoder is rejected by the status-200 and the status-500 decoder, and
    one accepted by the status-500 decoder is rejected by all the others,
    whatever field decoders are used. *)
Theorem statuses_exclude_one_another
    (eD dD eD' dD' : JD.Decoder) (blob r : Value) :
  (JD.decode (ok200Decoder dD) blob = JD.Ok r →
     JD.rejects (err400Decoder eD') blob
     ∧ JD.rejects (authErr400Decoder eD') blob
     ∧ JD.rejects (adminErr400Decoder eD') blob
     ∧ JD.rejects (internalErr500Decoder ()) blob)
  ∧ (JD.decode (err400Decoder eD) blob = JD.Ok r
     ∨ JD.decode (authErr400Decoder eD) blob = JD.Ok r
     ∨ JD.decode (adminErr400Decoder eD) blob = JD.Ok r →
       JD.rejects (ok200Decoder dD') blob
       ∧ JD.rejects (internalErr500Decoder ()) blob)
  ∧ (JD.decode (internalErr500Decoder ()) blob = JD.Ok r →
       JD.rejects (ok200Decoder dD') blob
       ∧ JD.rejects (err400Decoder eD') blob
       ∧ JD.rejects (authErr400Decoder eD') blob
       ∧ JD.rejects (adminErr400Decoder eD') blob).
Proof.
  rewrite !ok200Decoder_envelope, !err400Decoder_envelope,
          !authErr400Decoder_envelope, ?adminErr400Decoder_envelope.
  repeat apply conj.
  - intros Hr.
    destruct (envelope_inv _ _ _ data_not_tag _ _ Hr) as (o & _ & -> & Ht & _).
    assert (Hne : o !! "_t" ≠ Some (VStr "Err")) by congruence.
    repeat apply conj.
    + by apply (envelope_rejects_tag "Err" "code" eD' code_not_tag).
    + by apply (envelope_rejects_tag "Err" "code" _ code_not_tag).
    + by apply (envelope_rejects_tag "Err" "code" _ code_not_tag).
    + apply internalErr500Decoder_rejects_tag. congruence.
  - intros Hr.
    assert (∃ inner, JD.decode (envelope "Err" "code" inner) blob = JD.Ok r)
      as [inner Hd] by (destruct Hr as [?|[?|?]]; eauto).
    destruct (envelope_inv _ _ _ code_not_tag _ _ Hd) as (o & _ & -> & Ht & _).
    split.
    + apply (envelope_rejects_tag _ _ _ data_not_tag). congruence.
    + apply internalErr500Decoder_rejects_tag. congruence.
  - intros Hr.
    destruct (internalErr500Decoder_inv _ _ Hr) as (o & _ & -> & Ht & _).
    assert (Hne : o !! "_t" ≠ Some (VStr "Err")) by congruence.
    split; [|repeat apply conj].
    + apply (envelope_rejects_tag "Ok" "data" dD' data_not_tag). congruence.
    + by apply (envelope_rejects_tag "Err" "code" eD' code_not_tag).
    + by apply (envelope_rejects_tag "Err" "code" _ code_not_tag).
    + by apply (envelope_rejects_tag "Err" "code" _ code_not_tag).
Qed.

(** An ["Ok"] payload whose fields would suit every decoder is still
    refused at 400 and at 500. *)
Lemma statuses_exclude_one_another_witness :
  JD.rejects (err400Decoder JD.unknown)
    (VObj {["_t" := VStr "Ok"; "data" := VStr "x"; "code" := VStr "x";
            "errorID" := VStr "x"]})
  ∧ JD.rejects (internalErr500Decoder ())
      (VObj {["_t" := VStr "Ok"; "data" := VStr "x"; "code" := VStr "x";
              "errorID" := VStr "x"]}).
Proof.
  destruct (statuses_exclude_one_another
              JD.unknown JD.unknown JD.unknown JD.unknown
              (VObj {["_t" := VStr "Ok"; "data" := VStr "x";
                      "code" := VStr "x"; "errorID" := VStr "x"]})
              (VObj {["_t" := VStr "Ok"; "data" := VStr "x"]}))
    as (Hok & _).
  destruct Hok as (Hplain & _ & _ & Hserver); [reflexivity|].
  split; [exact Hplain | exact Hserver].
Defined.

(** X10.  Status and tag go together.  Whatever decoder a factory returns
    for a status, every value that decoder yields is a two-field envelope
    whose tag is the one of that status: ["Ok"] with [data] at 200, ["Err"]
    with [code] at 400, ["ServerError"] with [errorID] at 500. *)
Theorem decoded_tag_matches_status
    (errorDecoder dataDecoder d : JD.Decoder) (status : number)
    (blob r : Value) :
  responseDecoder errorDecoder dataDecoder status = Return d
  ∨ authResponseDecoder errorDecoder dataDecoder status = Return d →
  JD.decode d blob = JD.Ok r →
  ∃ v,
    (number_equal status (lit 200) = true
     ∧ r = VObj {["_t" := VStr "Ok"; "data" := v]})
    ∨ (number_equal status (lit 400) = true
       ∧ r = VObj {["_t" := VStr "Err"; "code" := v]})
    ∨ (number_equal status (lit 500) = true
       ∧ r = VObj {["_t" := VStr "ServerError"; "errorID" := v]}).
Proof.
  unfold responseDecoder, authResponseDecoder. intros Hd Hr.
  destruct (number_equal status (lit 200)) eqn:E200.
  { assert (d = ok200Decoder dataDecoder) as -> by (destruct Hd; congruence).
    rewrite ok200Decoder_envelope in Hr.
    destruct (envelope_inv _ _ _ data_not_tag _ _ Hr) as (_ & v & _ & _ & _ & ->).
    exists v. by left. }
  destruct (number_equal status (lit 400)) eqn:E400.
  { assert (∃ inner, d = envelope "Err" "code" inner) as [inner ->].
    { destruct Hd as [[= <-]|[= <-]]; eauto. }
    destruct (envelope_inv _ _ _ code_not_tag _ _ Hr) as (_ & v & _ & _ & _ & ->).
    exists v. right. by left. }
  destruct (number_equal status (lit 500)) eqn:E500.
  { assert (d = internalErr500Decoder ()) as -> by (destruct Hd; congruence).
    destruct (internalErr500Decoder_inv _ _ Hr) as (_ & s & _ & _ & _ & ->).
    exists (VStr s). right. by right. }
  destruct Hd; discriminate.
Qed.

Lemma decoded_tag_matches_status_witness :
  ∃ v,
    (number_equal (lit 400) (lit 200) = true
     ∧ VObj {["_t" := VStr "Err"; "code" := VStr "UNAUTHORISED"]}
       = VObj {["_t" := VStr "Ok"; "data" := v]})
    ∨ (number_equal (lit 400) (lit 400) = true
       ∧ VObj {["_t" := VStr "Err"; "code" := VStr "UNAUTHORISED"]}
         = VObj {["_t" := VStr "Err"; "code" := v]})
    ∨ (number_equal (lit 400) (lit 500) = true
       ∧ VObj {["_t" := VStr "Err"; "code" := VStr "UNAUTHORISED"]}
         = VObj {["_t" := VStr "ServerError"; "errorID" := v]}).
Proof.
  apply (decoded_tag_matches_status JD.string JD.string
           (authErr400Decoder JD.string) (lit 400)
           (VObj {["_t" := VStr "Err"; "code" := VStr "UNAUTHORISED";
                   "at" := VNum (lit 7)]})).
  - right. reflexivity.
  - reflexivity.
Defined.

(* ===================================================================== *)
(** ** Beyond the claims: the two families side by side *)
(* ===================================================================== *)

(** X11.  The authenticated decoder accepts every payload the plain decoder
    accepts.  On a payload whose [code] is not the string ["UNAUTHORISED"]
    the two decoders agree altogether: both reject, or both accept with the
    same value. *)
Theorem authErr400_extends_err400 (errorDecoder : JD.Decoder) (blob : Value) :
  (∀ r, JD.decode (err400Decoder errorDecoder) blob = JD.Ok r →
        ∃ r', JD.decode (authErr400Decoder errorDecoder) blob = JD.Ok r')
  ∧ ((∀ o, blob = VObj o → get o "code" ≠ VStr "UNAUTHORISED") →
     accepted (JD.decode (err400Decoder errorDecoder) blob)
     = accepted (JD.decode (authErr400Decoder errorDecoder) blob)).
Proof.
  rewrite err400Decoder_envelope, authErr400Decoder_envelope. split.
  - intros r Hr.
    destruct (envelope_inv _ _ _ code_not_tag _ _ Hr)
      as (o & c' & -> & Ht & Hc & _).
    rewrite (envelope_tagged _ _ _ code_not_tag o Ht).
    destruct (strict_equal (get o "code") (VStr "UNAUTHORISED")) eqn:E.
    + apply strict_equal_VStr in E. rewrite E, authCodeDecoder_literal. eauto.
    + rewrite (authCodeDecoder_other errorDecoder (get o "code") c'); eauto.
      intros Hu. rewrite Hu in E. discriminate E.
  - intros Hcode. destruct blob as [| | | | | |o|]; try reflexivity.
    destruct (tag_dec o "Err") as [Ht|Ht].
    + rewrite !(envelope_tagged_accepted _ _ _ o code_not_tag Ht).
      by rewrite authCodeDecoder_accepted by by apply Hcode.
    + pose proof Ht as Ht'.
      apply (envelope_rejects_tag "Err" "code" errorDecoder code_not_tag),
        rejects_accepted in Ht.
      apply (envelope_rejects_tag "Err" "code"
               (authCodeDecoder errorDecoder) code_not_tag),
        rejects_accepted in Ht'.
      by rewrite Ht, Ht'.
Qed.

Lemma authErr400_extends_err400_witness :
  (∃ r', JD.decode (authErr400Decoder JD.string)
                   (VObj {["_t" := VStr "Err"; "code" := VStr "GONE"]})
         = JD.Ok r')
  ∧ accepted (JD.decode (err400Decoder JD.string)
                        (VObj {["_t" := VStr "Err"; "code" := VStr "GONE"]}))
    = accepted (JD.decode (authErr400Decoder JD.string)
                          (VObj {["_t" := VStr "Err"; "code" := VStr "GONE"]})).
Proof.
  destruct (authErr400_extends_err400 JD.string
              (VObj {["_t" := VStr "Err"; "code" := VStr "GONE"]}))
    as [Hext Hagree].
  split.
  - apply (Hext (VObj {["_t" := VStr "Err"; "code" := VStr "GONE"]})).
    reflexivity.
  - apply Hagree. intros o [= <-]. vm_compute. discriminate.
Defined.

(** X12.  At every status that is not 400 the plain and the authenticated
    factory do the same: they return the same decoder or throw the same
    error.  The two families differ in the status-400 decoder only. *)
Theorem factories_differ_at_400_only
    (errorDecoder dataDecoder : JD.Decoder) (status : number) :
  number_equal status (lit 400) = false →
  responseDecoder errorDecoder dataDecoder status
  = authResponseDecoder errorDecoder dataDecoder status.
Proof.
  intros H. unfold responseDecoder, authResponseDecoder. by rewrite H.
Qed.

Lemma factories_differ_at_400_only_witness :
  responseDecoder JD.string JD.unknown (lit 200)
  = authResponseDecoder JD.string JD.unknown (lit 200)
  ∧ responseDecoder JD.string JD.unknown (lit 404)
    = authResponseDecoder JD.string JD.unknown (lit 404).
Proof.
  split.
  - apply (factories_differ_at_400_only JD.string JD.unknown (lit 200)).
    reflexivity.
  - apply (factories_differ_at_400_only JD.string JD.unknown (lit 404)).
    reflexivity.
Defined.

(** X13.  Among the integers, 200, 400 and 500 are the only statuses for
    which a factory returns a decoder; [NaN] and the two infinities throw
    like any other status. *)
Theorem integer_statuses
    (errorDecoder dataDecoder : JD.Decoder) (z : Z) :
  ((∃ d, responseDecoder errorDecoder dataDecoder (lit z) = Return d)
   ↔ z = 200%Z ∨ z = 400%Z ∨ z = 500%Z)
  ∧ ((∃ d, authResponseDecoder errorDecoder dataDecoder (lit z) = Return d)
     ↔ z = 200%Z ∨ z = 400%Z ∨ z = 500%Z)
  ∧ (∀ status, status = NaN ∨ (∃ b, status = Infinity b) →
       (∃ e, responseDecoder errorDecoder dataDecoder status = Throw e)
       ∧ (∃ e, authResponseDecoder errorDecoder dataDecoder status = Throw e)).
Proof.
  unfold responseDecoder, authResponseDecoder.
  rewrite !number_equal_lit. repeat apply conj.
  - intros [d Hd]. repeat case_bool_decide; auto. discriminate Hd.
  - intros [-> | [-> | ->]]; simpl; eauto.
  - intros [d Hd]. repeat case_bool_decide; auto. discriminate Hd.
  - intros [-> | [-> | ->]]; simpl; eauto.
  - intros status [-> | [b ->]]; simpl; eauto.
Qed.

Lemma integer_statuses_witness :
  (∃ d, responseDecoder JD.string JD.unknown (lit 400) = Return d)
  ∧ (∃ e, authResponseDecoder JD.string JD.unknown NaN = Throw e).
Proof.
  destruct (integer_statuses JD.string JD.unknown 400) as (Hplain & _ & Hnan).
  split.
  - apply Hplain. right. by left.
  - apply (Hnan NaN). by left.
Defined.

(* ===================================================================== *)
(** ** Beyond the claims: decoding again, and what is read *)
(* ===================================================================== *)

(** X14.  What the status-500 decoder yields it accepts again, unchanged:
    a decoded server error is itself a valid status-500 payload. *)
Theorem internalErr500_redecodes (blob r : Value) :
  JD.decode (internalErr500Decoder ()) blob = JD.Ok r →
  JD.decode (internalErr500Decoder ()) r = JD.Ok r.
Proof.
  intros Hr. destruct (internalErr500Decoder_inv _ _ Hr)
    as (_ & s & _ & _ & _ & ->).
  by apply internalErr500Decoder_accepts.
Qed.

(** A payload with fields to spare decodes to two fields, and those decode
    to themselves. *)
Lemma internalErr500_redecodes_witness :
  JD.decode (internalErr500Decoder ())
            (VObj {["_t" := VStr "ServerError"; "errorID" := VStr "e-17"]})
  = JD.Ok (VObj {["_t" := VStr "ServerError"; "errorID" := VStr "e-17"]}).
Proof.
  apply (internalErr500_redecodes
           (VObj {["_t" := VStr "ServerError"; "errorID" := VStr "e-17";
                   "stack" := VArr []]})).
  reflexivity.
Defined.

(** X15.  When the field decoder accepts its own outputs unchanged, so does
    the envelope decoder built from it: what [ok200Decoder], [err400Decoder],
    [authErr400Decoder] and [adminErr400Decoder] yield, they accept again
    with the same result. *)
Theorem envelopes_redecode
    (errorDecoder dataDecoder : JD.Decoder) :
  (stable dataDecoder → stable (ok200Decoder dataDecoder))
  ∧ (stable errorDecoder →
     stable (err400Decoder errorDecoder)
     ∧ stable (authErr400Decoder errorDecoder)
     ∧ stable (adminErr400Decoder errorDecoder)).
Proof.
  rewrite ok200Decoder_envelope, err400Decoder_envelope,
          authErr400Decoder_envelope, ?adminErr400Decoder_envelope.
  split.
  - apply (envelope_stable _ _ _ data_not_tag).
  - intros Hst. repeat apply conj.
    + by apply (envelope_stable _ _ _ code_not_tag).
    + by apply (envelope_stable _ _ _ code_not_tag), authCodeDecoder_stable.
    + by apply (envelope_stable _ _ _ code_not_tag), authCodeDecoder_stable.
Qed.

Lemma string_stable : stable JD.string.
Proof. intros v v' H. destruct v; try discriminate H. by injection H as <-. Qed.

Lemma envelopes_redecode_witness :
  JD.decode (authErr400Decoder JD.string)
            (VObj {["_t" := VStr "Err"; "code" := VStr "GONE"]})
  = JD.Ok (VObj {["_t" := VStr "Err"; "code" := VStr "GONE"]}).
Proof.
  destruct (envelopes_redecode JD.string JD.string) as [_ Herr].
  destruct (Herr string_stable) as (_ & Hauth & _).
  apply (Hauth (VObj {["_t" := VStr "Err"; "code" := VStr "GONE";
                       "hint" := VNull]})).
  reflexivity.
Defined.

(** X16.  Each envelope decoder reads the payload through its two declared
    keys and nothing else: two objects that hold the same under [_t] and
    under the second key, an absent key counting as one that holds
    [undefined], are both rejected or are both accepted with the same
    value. *)
Theorem only_declared_keys_are_read
    (errorDecoder dataDecoder : JD.Decoder) (o1 o2 : gmap string Value) :
  get o1 "_t" = get o2 "_t" →
  (get o1 "data" = get o2 "data" →
   accepted (JD.decode (ok200Decoder dataDecoder) (VObj o1))
   = accepted (JD.decode (ok200Decoder dataDecoder) (VObj o2)))
  ∧ (get o1 "code" = get o2 "code" →
     accepted (JD.decode (err400Decoder errorDecoder) (VObj o1))
     = accepted (JD.decode (err400Decoder errorDecoder) (VObj o2))
     ∧ accepted (JD.decode (authErr400Decoder errorDecoder) (VObj o1))
       = accepted (JD.decode (authErr400Decoder errorDecoder) (VObj o2))
     ∧ accepted (JD.decode (adminErr400Decoder errorDecoder) (VObj o1))
       = accepted (JD.decode (adminErr400Decoder errorDecoder) (VObj o2)))
  ∧ (get o1 "errorID" = get o2 "errorID" →
     accepted (JD.decode (internalErr500Decoder ()) (VObj o1))
     = accepted (JD.decode (internalErr500Decoder ()) (VObj o2))).
Proof.
  intros Ht.
  rewrite ok200Decoder_envelope, err400Decoder_envelope,
          authErr400Decoder_envelope, ?adminErr400Decoder_envelope.
  repeat apply conj.
  - by apply (envelope_declared_keys _ _ _ data_not_tag).
  - intros Hc. repeat apply conj;
      by apply (envelope_declared_keys _ _ _ code_not_tag).
  - by apply internalErr500Decoder_declared_keys.
Qed.

(** [{ _t: "Ok", data: undefined, debug: true }] and [{ _t: "Ok" }] fare
    alike. *)
Lemma only_declared_keys_are_read_witness :
  accepted (JD.decode (ok200Decoder JD.string)
              (VObj {["_t" := VStr "Ok"; "data" := VUndefined;
                      "debug" := VBool true]}))
  = accepted (JD.decode (ok200Decoder JD.string)
                (VObj {["_t" := VStr "Ok"]})).
Proof.
  destruct (only_declared_keys_are_read JD.string JD.string
              {["_t" := VStr "Ok"; "data" := VUndefined;
                "debug" := VBool true]}
              {["_t" := VStr "Ok"]}) as [Hok _]; [reflexivity|].
  apply Hok. reflexivity.
Defined.
